(** * Order service: the order-creation endpoint

    A shallow embedding of [services/order_service/models.py] and of the
    [create_order] handler of [services/order_service/main.py], followed by
    the properties of the handler: idempotent replay, race recovery, the
    identity gate, outcome classification and the notification policy.
    The listing handler [list_orders] is embedded too, with the
    invariants of the store under the endpoint and the behaviour of the
    listing.

    The handler talks to three gateways and to a database session.  Each
    call of the handler is run against a [World]: the answers the gateways
    give to that call, the clock, the rows other sessions commit while the
    call waits for its gateways, and the fault (if any) the storage engine
    raises at commit.  The handler returns its HTTP response, the store it
    leaves behind and the gateway calls it made, in order. *)

From Stdlib Require Import ZArith Floats DecimalString.
From stdpp Require Import base option list strings gmap.
From stdpp Require Import sorting.

Local Open Scope Z_scope.

(** ** Python values *)

(** Exceptions the handler can meet.  [IntegrityError] is the one class the
    handler names ([except IntegrityError]); every constructor is an
    [Exception], so [except Exception] catches them all. *)
Inductive Exception :=
| IntegrityError
| OperationalError
| ValidationError
| GatewayError (name : string).

Definition is_IntegrityError (e : Exception) : bool :=
  match e with IntegrityError => true | _ => false end.

(** The result of a call that may raise. *)
Inductive Outcome (A : Type) :=
| Returned (a : A)
| Raised (e : Exception).
Arguments Returned {A} a.
Arguments Raised {A} e.

(** The values a gateway's JSON answer can hold under a key. *)
Inductive pyval :=
| VNone
| VBool (b : bool)
| VInt (z : Z)
| VFloat (f : float)
| VStr (s : string).

(** Python truth value, as tested by [x if v else y]. *)
Definition truthy (v : pyval) : bool :=
  match v with
  | VNone => false
  | VBool b => b
  | VInt z => negb (z =? 0)
  | VFloat f => negb (PrimFloat.eqb f PrimFloat.zero)
  | VStr s => negb (String.eqb s "")
  end.

(** ** models.py *)

Inductive OrderStatus := CONFIRMED | FAILED.

(** [datetime] values, as seconds on the clock. *)
Abbreviation datetime := Z (only parsing).

Module Order.
Record t := mk {
  id : option Z;
  user_id : Z;
  price : float;
  status : OrderStatus;
  message : string;
  created_at : datetime;
  idempotency_key : option string
}.
End Order.

Module OrderCreate.
Record t := mk {
  user_id : Z;
  price : float
}.

(** [Field(..., ge=1)] and [Field(..., gt=0)].  The comparison is IEEE:
    it is false on NaN. *)
Definition valid (user_id : Z) (price : float) : bool :=
  (1 <=? user_id) && PrimFloat.ltb PrimFloat.zero price.

(** Validation of a request body: the model is built only from a body
    that meets both bounds. *)
Definition validate (user_id : Z) (price : float) : option t :=
  if valid user_id price then Some (mk user_id price) else None.
End OrderCreate.

Module OrderRead.
Record t := mk {
  id : Z;
  user_id : Z;
  price : float;
  status : OrderStatus;
  message : string;
  created_at : datetime
}.
End OrderRead.

(** ** Responses, gateway calls and the world of one request *)

Inductive Response :=
| Created (body : OrderRead.t)
| HTTPException (status_code : Z) (detail : string)
| Unhandled (e : Exception)
| Unprocessable.

Definition HTTP_404_NOT_FOUND : Z := 404.

(** Modelled from the spec: the Identity Gateway's answer ([clients.py] is
    not part of the sources), [resolve(user_id) -> {email, ...}]; the
    handler reads the address as [user["email"]]. *)
Record User := { email : string }.

(** The Ledger Gateway's answer, a dictionary read with [.get]. *)
Abbreviation Payment := (gmap string pyval) (only parsing).

Inductive Event :=
| EvGetUser (user_id : Z)
| EvWithdraw (user_id : Z) (amount : float)
| EvSendEmail (user_id : Z) (email subject body : string).

Definition is_notification (ev : Event) : bool :=
  match ev with EvSendEmail _ _ _ _ => true | _ => false end.

Definition notifications (trace : list Event) : list Event :=
  List.filter is_notification trace.

Record World := {
  get_user : Z -> Outcome User;
  withdraw : Z -> float -> Outcome Payment;
  send_email : Z -> string -> string -> string -> Outcome unit;
  utcnow : datetime;
  (** rows other sessions commit after this request's first lookup and
      before its own commit *)
  racing_rows : list Order.t;
  (** what the storage engine raises at commit for a reason other than the
      unique index on [idempotency_key] *)
  commit_fault : option Exception
}.

(** ** The store *)

Abbreviation Store := (list Order.t) (only parsing).

(** [select(Order).where(Order.idempotency_key == key).first()]; a [None]
    key compiles to [IS NULL] and matches the rows stored without a key. *)
Definition select_by_key (key : option string) (st : Store) : option Order.t :=
  head (filter (λ o, Order.idempotency_key o = key) st).

(** The identity the store gives the next row: one above every identity
    in use. *)
Definition next_id (st : Store) : Z :=
  1 + foldr Z.max 0 (omap Order.id st).

(** The unique index on [idempotency_key] ([unique=True] in models.py): a
    row with a non-null key is refused when a row with that key is stored;
    rows without a key never collide. *)
Definition duplicate_key (o : Order.t) (st : Store) : bool :=
  match Order.idempotency_key o with
  | Some k => bool_decide (is_Some (select_by_key (Some k) st))
  | None => false
  end.

Definition with_id (i : Z) (o : Order.t) : Order.t :=
  Order.mk (Some i) (Order.user_id o) (Order.price o) (Order.status o)
           (Order.message o) (Order.created_at o) (Order.idempotency_key o).

(** Modelled from the spec: the Order Store's insert ([db.py] and the
    storage engine are not part of the sources).  It assigns the identity
    and persists; it fails with [IntegrityError] when the key is non-null
    and already present, and with the engine's fault otherwise.  A failed
    commit, once rolled back, leaves the store as it was. *)
Definition commit (fault : option Exception) (st : Store) (o : Order.t)
  : Outcome Order.t * Store :=
  if duplicate_key o st then (Raised IntegrityError, st)
  else match fault with
       | Some e => (Raised e, st)
       | None => let o' := with_id (next_id st) o in (Returned o', st ++ [o'])
       end.

(** ** main.py *)

(** The [OrderRead] built from [order.model_dump()]: its [id] must be an
    [int], so a row without one is a validation error. *)
Definition OrderRead_of (o : Order.t) : Outcome OrderRead.t :=
  match Order.id o with
  | Some i => Returned (OrderRead.mk i (Order.user_id o) (Order.price o)
                          (Order.status o) (Order.message o) (Order.created_at o))
  | None => Raised ValidationError
  end.

Definition respond (o : Order.t) : Response :=
  match OrderRead_of o with
  | Returned body => Created body
  | Raised e => Unhandled e
  end.

(** Lines 33-36: the lookup runs only for a truthy key, so neither a
    missing header nor an empty one is looked up. *)
Definition fast_path (idempotency_key : option string) (st : Store) : option Order.t :=
  match idempotency_key with
  | Some k => if String.eqb k "" then None else select_by_key (Some k) st
  | None => None
  end.

(** Lines 45-54: [(withdrawal_success, message, payment)]. *)
Definition attempt_withdrawal (r : Outcome Payment) : pyval * pyval * Payment :=
  match r with
  | Returned payment =>
      (default (VBool false) (payment !! "withdrawn"),
       default (VStr "") (payment !! "message"),
       payment)
  | Raised _ => (VBool false, VStr "Billing unavailable", ∅)
  end.

Definition status_value (withdrawal_success : pyval) : OrderStatus :=
  if truthy withdrawal_success then CONFIRMED else FAILED.

Definition subject : string := "Результат оформления заказа".

Section Handler.

(** [str] of a float, as an f-string prints it; the interpreter's
    shortest-repr algorithm is taken as given. *)
Variable float_str : float -> string.

Definition py_str (v : pyval) : string :=
  match v with
  | VNone => "None"
  | VBool true => "True"
  | VBool false => "False"
  | VInt z => NilZero.string_of_int (Z.to_int z)
  | VFloat f => float_str f
  | VStr s => s
  end.

(** Lines 57-61. *)
Definition email_body (price : float) (withdrawal_success message : pyval)
    (payment : Payment) : string :=
  if truthy withdrawal_success
  then "Письмо счастья: заказ на сумму " +:+ float_str price
       +:+ " подтвержден. Баланс "
       +:+ py_str (default (VStr "n/a") (payment !! "balance"))
  else "Письмо горя: не удалось списать " +:+ float_str price
       +:+ ". " +:+ py_str message.

(** Lines 63-69: the order handed to the session. *)
Definition build_order (w : World) (payload : OrderCreate.t)
    (idempotency_key : option string) : Order.t :=
  let '(withdrawal_success, message, payment) :=
    attempt_withdrawal
      (withdraw w (OrderCreate.user_id payload) (OrderCreate.price payload)) in
  Order.mk None (OrderCreate.user_id payload) (OrderCreate.price payload)
    (status_value withdrawal_success)
    (email_body (OrderCreate.price payload) withdrawal_success message payment)
    (utcnow w) idempotency_key.

(** Lines 28-92. *)
Definition create_order (w : World) (payload : OrderCreate.t)
    (idempotency_key : option string) (st : Store)
  : Response * Store * list Event :=
  match fast_path idempotency_key st with
  | Some existing_order => (respond existing_order, st, [])
  | None =>
    let uid := OrderCreate.user_id payload in
    match get_user w uid with
    | Raised _ =>
        (HTTPException HTTP_404_NOT_FOUND "User not found", st, [EvGetUser uid])
    | Returned user =>
      let order := build_order w payload idempotency_key in
      let calls := [EvGetUser uid; EvWithdraw uid (OrderCreate.price payload)] in
      match commit (commit_fault w) (st ++ racing_rows w) order with
      | (Raised e, st') =>
          if is_IntegrityError e then
            match select_by_key idempotency_key st' with
            | Some existing_order => (respond existing_order, st', calls)
            | None => (Unhandled e, st', calls)
            end
          else (Unhandled e, st', calls)
      | (Returned order', st') =>
          let body := Order.message order in
          let sent := calls ++ [EvSendEmail uid (email user) subject body] in
          match send_email w uid (email user) subject body with
          | Raised e => (Unhandled e, st', sent)
          | Returned _ => (respond order', st', sent)
          end
      end
    end
  end.

(** [POST /orders]: the body is validated against [OrderCreate] before the
    handler runs. *)
Definition post_orders (w : World) (user_id : Z) (price : float)
    (idempotency_key : option string) (st : Store)
  : Response * Store * list Event :=
  match OrderCreate.validate user_id price with
  | None => (Unprocessable, st, [])
  | Some payload => create_order w payload idempotency_key st
  end.

(** The same request issued again and again, one call after the other. *)
Fixpoint replay (ws : list World) (payload : OrderCreate.t)
    (idempotency_key : option string) (st : Store) : list Response * Store :=
  match ws with
  | [] => ([], st)
  | w :: ws' =>
      let '(r, st1, _) := create_order w payload idempotency_key st in
      let '(rs, st2) := replay ws' payload idempotency_key st1 in
      (r :: rs, st2)
  end.

End Handler.

(** ** main.py: the listing endpoint *)

(** Lines 96-98: [select(Order)], narrowed to one user when the query
    parameter is given.  The test is [user_id is not None], so [0] is a
    filter like any other number. *)
Definition where_user (user_id : option Z) (st : Store) : list Order.t :=
  match user_id with
  | Some u => filter (λ o, Order.user_id o = u) st
  | None => st
  end.

(** [order_by(Order.created_at)]: ascending. *)
Definition created_before : relation Order.t :=
  λ a b, Order.created_at a ≤ Order.created_at b.

#[global] Instance created_before_dec : RelDecision created_before.
Proof. intros a b. unfold created_before. apply _. Defined.

(** Line 100: the list comprehension; the first row that cannot be read
    as an [OrderRead] raises. *)
Fixpoint read_all (rows : list Order.t) : Outcome (list OrderRead.t) :=
  match rows with
  | [] => Returned []
  | item :: rest =>
      match OrderRead_of item with
      | Raised e => Raised e
      | Returned body =>
          match read_all rest with
          | Raised e => Raised e
          | Returned bodies => Returned (body :: bodies)
          end
      end
  end.

(** Lines 94-100.  Rows created at the same instant come out in the order
    the sort leaves them; the engine promises no order among them, and the
    properties below do not depend on it. *)
Definition list_orders (user_id : option Z) (st : Store)
  : Outcome (list OrderRead.t) :=
  read_all (merge_sort created_before (where_user user_id st)).

(** ** Vocabulary of the properties *)

(** [sub] occurs in [s]. *)
Definition contains (sub s : string) : Prop :=
  ∃ pre post, s = pre +:+ sub +:+ post.

Fixpoint containsb (sub s : string) : bool :=
  String.prefix sub s ||
  match s with
  | EmptyString => false
  | String _ s' => containsb sub s'
  end.

(** The ledger reported success: it answered, and with a truthy
    [withdrawn]. *)
Definition reported_success (r : Outcome Payment) : bool :=
  match r with
  | Returned payment => truthy (default (VBool false) (payment !! "withdrawn"))
  | Raised _ => false
  end.

(** The request reaches the store and the store has no fault of its own. *)
Definition reaches_commit (w : World) (payload : OrderCreate.t) : Prop :=
  (∃ user, get_user w (OrderCreate.user_id payload) = Returned user) ∧
  commit_fault w = None.

(** Every collaborator of the call answers, and no other session writes
    while the call runs. *)
Definition healthy (w : World) (payload : OrderCreate.t) : Prop :=
  reaches_commit w payload ∧
  racing_rows w = [] ∧
  ∀ address subj body,
    send_email w (OrderCreate.user_id payload) address subj body = Returned ().

(** The bounds of [OrderCreate], read on a stored row. *)
Definition within_bounds (o : Order.t) : Prop :=
  1 ≤ Order.user_id o ∧ PrimFloat.ltb PrimFloat.zero (Order.price o) = true.

(** No two rows share a non-null key: what the unique index keeps. *)
Definition unique_keys (st : Store) : Prop :=
  NoDup (omap Order.idempotency_key st).

(** Every row has its identity. *)
Definition all_identified (st : Store) : Prop :=
  Forall (λ o, is_Some (Order.id o)) st.

(** The rows of a listing are in ascending order of creation. *)
Definition by_creation : relation OrderRead.t :=
  λ a b, OrderRead.created_at a ≤ OrderRead.created_at b.

(** A request as the endpoint receives it, with the world it runs in. *)
Record Request := {
  world : World;
  body_user_id : Z;
  body_price : float;
  header_key : option string
}.

(** The endpoint serving requests one after the other. *)
Definition serve (float_str : float -> string) (reqs : list Request) (st : Store) : Store :=
  foldl (λ acc r,
           (post_orders float_str (world r) (body_user_id r) (body_price r)
              (header_key r) acc).1.2) st reqs.

(** ** Scenarios *)

(** [str] of a float on whole amounts below 1e16, where Python prints the
    digits and [.0]; the scenarios below only use such amounts. *)
Definition float_str_whole (f : float) : string :=
  match Prim2SF f with
  | S754_zero s => if s then "-0.0" else "0.0"
  | S754_infinity s => if s then "-inf" else "inf"
  | S754_nan => "nan"
  | S754_finite s m e =>
      let n := if 0 <=? e then Z.pos m * 2 ^ e else Z.pos m / 2 ^ (- e) in
      (if s then "-" else "") +:+ NilZero.string_of_int (Z.to_int n) +:+ ".0"
  end.

Definition alice : User := {| email := "alice@example.com" |}.

(** A world where the user exists, the store has no fault, nobody else
    writes and mail is delivered; the ledger answers as given. *)
Definition answering (ledger : Outcome Payment) : World :=
  {| get_user := λ _, Returned alice;
     withdraw := λ _ _, ledger;
     send_email := λ _ _ _ _, Returned ();
     utcnow := 1700000000;
     racing_rows := [];
     commit_fault := None |}.

(** The same world, with rows committed by another session in between. *)
Definition raced (rows : list Order.t) (ledger : Outcome Payment) : World :=
  {| get_user := get_user (answering ledger);
     withdraw := withdraw (answering ledger);
     send_email := send_email (answering ledger);
     utcnow := utcnow (answering ledger);
     racing_rows := rows;
     commit_fault := None |}.

(** The same world, with a store that raises [e] at commit. *)
Definition faulting (e : Exception) (ledger : Outcome Payment) : World :=
  {| get_user := get_user (answering ledger);
     withdraw := withdraw (answering ledger);
     send_email := send_email (answering ledger);
     utcnow := utcnow (answering ledger);
     racing_rows := [];
     commit_fault := Some e |}.

(** A world whose Identity Gateway knows nobody. *)
Definition nobody_home : World :=
  {| get_user := λ _, Raised (GatewayError "HTTPStatusError");
     withdraw := λ _ _, Raised (GatewayError "ConnectError");
     send_email := λ _ _ _ _, Returned ();
     utcnow := 1700000000;
     racing_rows := [];
     commit_fault := None |}.

Definition ledger_confirms : Outcome Payment :=
  Returned (<["withdrawn" := VBool true]>
            (<["message" := VStr "ok"]>
             (<["balance" := VFloat 450%float]> ∅))).

Definition ledger_declines : Outcome Payment :=
  Returned (<["withdrawn" := VBool false]>
            (<["message" := VStr "insufficient funds"]> ∅)).

(** A decline that carries no message. *)
Definition ledger_declines_silently : Outcome Payment :=
  Returned (<["withdrawn" := VBool false]> ∅).

Definition ledger_down : Outcome Payment :=
  Raised (GatewayError "ConnectError").

(** The order another session stored under the key [dup-1]. *)
Definition winner : Order.t :=
  Order.mk (Some 1) 1 1000%float CONFIRMED "stored by the winner" 1699999999
    (Some "dup-1").

(** The world [w] with another answer from the ledger. *)
Definition with_ledger (w : World) (ledger : Outcome Payment) : World :=
  {| get_user := get_user w;
     withdraw := λ _ _, ledger;
     send_email := send_email w;
     utcnow := utcnow w;
     racing_rows := racing_rows w;
     commit_fault := commit_fault w |}.

(** A world where everything answers but the mail, which raises. *)
Definition mail_down (ledger : Outcome Payment) : World :=
  {| get_user := get_user (answering ledger);
     withdraw := withdraw (answering ledger);
     send_email := λ _ _ _ _, Raised (GatewayError "ConnectError");
     utcnow := utcnow (answering ledger);
     racing_rows := [];
     commit_fault := None |}.

(** Three stored orders, the second one the oldest. *)
Definition three_orders : list Order.t :=
  [Order.mk (Some 1) 1 50%float CONFIRMED "first" 1700000300 None;
   Order.mk (Some 2) 2 70%float FAILED "second" 1700000100 (Some "abc");
   Order.mk (Some 3) 1 20%float CONFIRMED "third" 1700000200 None].

(** ** Strings *)

Lemma prefix_append (s t : string) : String.prefix s (s +:+ t) = true.
Proof.
  induction s as [|a s IH]; simpl.
  - by destruct t.
  - destruct (Ascii.ascii_dec a a); [exact IH | congruence].
Qed.

Lemma containsb_prefix (sub s : string) :
  String.prefix sub s = true → containsb sub s = true.
Proof. intros H. destruct s; cbn [containsb]; by rewrite H. Qed.

Lemma contains_containsb (sub s : string) :
  contains sub s → containsb sub s = true.
Proof.
  intros (pre & post & ->).
  induction pre as [|a pre IH].
  - change ("" +:+ sub +:+ post) with (sub +:+ post).
    apply containsb_prefix, prefix_append.
  - simpl. rewrite IH. apply orb_true_r.
Qed.

Lemma contains_here (pre sub post : string) :
  contains sub (pre +:+ sub +:+ post).
Proof. by exists pre, post. Qed.

Lemma append_assoc (a b c : string) : (a +:+ b) +:+ c = a +:+ (b +:+ c).
Proof.
  induction a as [|x a IH]; [done|].
  change (String x ((a +:+ b) +:+ c) = String x (a +:+ b +:+ c)).
  by rewrite IH.
Qed.

Lemma append_empty_r (a : string) : a +:+ "" = a.
Proof.
  induction a as [|x a IH]; [done|].
  change (String x (a +:+ "") = String x a). by rewrite IH.
Qed.

Lemma contains_suffix (pre sub : string) : contains sub (pre +:+ sub).
Proof. exists pre, "". by rewrite append_empty_r. Qed.

(** ** The store *)

Lemma select_by_key_app (key : option string) (st st' : list Order.t) :
  select_by_key key (st ++ st') =
  match select_by_key key st with
  | Some o => Some o
  | None => select_by_key key st'
  end.
Proof. unfold select_by_key. by rewrite filter_app, head_app. Qed.

Lemma select_by_key_Some (key : option string) (st : list Order.t) (o : Order.t) :
  select_by_key key st = Some o → Order.idempotency_key o = key ∧ o ∈ st.
Proof.
  unfold select_by_key. intros H%head_Some_elem_of.
  by apply list_elem_of_filter in H.
Qed.

Lemma select_by_key_None (key : option string) (st : list Order.t) :
  select_by_key key st = None →
  filter (λ o, Order.idempotency_key o = key) st = [].
Proof. unfold select_by_key. by intros H%head_None. Qed.

Lemma select_by_key_singleton (key : option string) (o : Order.t) :
  Order.idempotency_key o = key → select_by_key key [o] = Some o.
Proof.
  intros H. unfold select_by_key.
  by rewrite (list.filter_singleton_True _ o []).
Qed.

Lemma foldr_max_above (l : list Z) (i : Z) : i ∈ l → i ≤ foldr Z.max 0 l.
Proof.
  induction l as [|x l IH]; intros Hin.
  - by apply elem_of_nil in Hin.
  - apply elem_of_cons in Hin as [->|Hin]; simpl; [lia|].
    specialize (IH Hin). lia.
Qed.

Lemma next_id_above (st : list Order.t) (o : Order.t) (i : Z) :
  o ∈ st → Order.id o = Some i → i < next_id st.
Proof.
  intros Hin Hid. unfold next_id.
  assert (i ≤ foldr Z.max 0 (omap Order.id st)); [|lia].
  apply foldr_max_above, list_elem_of_omap. by exists o.
Qed.

Lemma duplicate_key_None (o : Order.t) (st : list Order.t) :
  Order.idempotency_key o = None → duplicate_key o st = false.
Proof. unfold duplicate_key. by intros ->. Qed.

Lemma duplicate_key_true (o : Order.t) (st : list Order.t) :
  duplicate_key o st = true →
  ∃ existing, select_by_key (Order.idempotency_key o) st = Some existing.
Proof.
  unfold duplicate_key. destruct (Order.idempotency_key o) as [k|]; [|done].
  intros [x Hx]%bool_decide_eq_true. by exists x.
Qed.

Lemma duplicate_key_fresh (o : Order.t) (st : list Order.t) :
  select_by_key (Order.idempotency_key o) st = None → duplicate_key o st = false.
Proof.
  unfold duplicate_key. destruct (Order.idempotency_key o) as [k|]; [|done].
  intros H. apply bool_decide_eq_false. rewrite H. by intros [? ?].
Qed.

Lemma duplicate_key_stored (o existing : Order.t) (k : string) (st : list Order.t) :
  Order.idempotency_key o = Some k →
  select_by_key (Some k) st = Some existing → duplicate_key o st = true.
Proof.
  unfold duplicate_key. intros -> H. apply bool_decide_eq_true. by rewrite H.
Qed.

(** What a commit can do: raise and leave the store alone, or return the
    row with its fresh identity appended. *)
Lemma commit_cases (fault : option Exception) (st : list Order.t) (o : Order.t) :
  (∃ e, commit fault st o = (Raised e, st) ∧
        (duplicate_key o st = true ∧ e = IntegrityError ∨
         duplicate_key o st = false ∧ fault = Some e)) ∨
  (commit fault st o = (Returned (with_id (next_id st) o), st ++ [with_id (next_id st) o]) ∧
   duplicate_key o st = false ∧ fault = None).
Proof.
  unfold commit. destruct (duplicate_key o st).
  - left. exists IntegrityError. auto.
  - destruct fault as [e|]; [left; exists e; auto | right; auto].
Qed.

(** ** The handler *)

Section HandlerFacts.

Variable float_str : float -> string.

(** Case analysis along the handler's branches. *)
Ltac handler_cases w payload key st :=
  unfold create_order;
  destruct (fast_path key st) as [existing|] eqn:Hfast;
  [| destruct (get_user w (OrderCreate.user_id payload)) as [user|e_user] eqn:Huser;
     [ destruct (commit_cases (commit_fault w) (st ++ racing_rows w)
                   (build_order float_str w payload key))
         as [(e_commit & -> & Hwhy) | (-> & Hfresh & Hfault)];
       [ destruct (is_IntegrityError e_commit) eqn:Hintegrity;
         [ destruct (select_by_key key (st ++ racing_rows w))
             as [recovered|] eqn:Hreread |]
       | destruct (send_email w (OrderCreate.user_id payload) (email user) subject
                     (Order.message (build_order float_str w payload key)))
           as [[]|e_mail] eqn:Hmail ]
     |] ].

Lemma build_order_key (w : World) (payload : OrderCreate.t) (key : option string) :
  Order.idempotency_key (build_order float_str w payload key) = key.
Proof. unfold build_order. by destruct (attempt_withdrawal _) as [[? ?] ?]. Qed.

Lemma build_order_user_id (w : World) (payload : OrderCreate.t) (key : option string) :
  Order.user_id (build_order float_str w payload key) = OrderCreate.user_id payload.
Proof. unfold build_order. by destruct (attempt_withdrawal _) as [[? ?] ?]. Qed.

Lemma build_order_price (w : World) (payload : OrderCreate.t) (key : option string) :
  Order.price (build_order float_str w payload key) = OrderCreate.price payload.
Proof. unfold build_order. by destruct (attempt_withdrawal _) as [[? ?] ?]. Qed.

Lemma build_order_status (w : World) (payload : OrderCreate.t) (key : option string) :
  Order.status (build_order float_str w payload key) =
  if reported_success
       (withdraw w (OrderCreate.user_id payload) (OrderCreate.price payload))
  then CONFIRMED else FAILED.
Proof.
  unfold build_order, attempt_withdrawal, reported_success, status_value.
  by destruct (withdraw w _ _).
Qed.

Lemma fast_path_stored (k : string) (st : list Order.t) :
  k ≠ "" → fast_path (Some k) st = select_by_key (Some k) st.
Proof. unfold fast_path. by destruct (String.eqb_spec k ""). Qed.

(** The store a call leaves behind: the one it found, the one it found
    with the racing rows, or that one with the order it built. *)
Lemma create_order_store (w : World) (payload : OrderCreate.t)
    (key : option string) (st : list Order.t) :
  let st' := (create_order float_str w payload key st).1.2 in
  let mid := st ++ racing_rows w in
  st' = st ∨ st' = mid ∨
  st' = mid ++ [with_id (next_id mid) (build_order float_str w payload key)].
Proof.
  handler_cases w payload key st; simpl; auto.
Qed.

(** An [IntegrityError] at commit, whatever the key of the request, sends
    the handler to the re-read under that key. *)
Lemma integrity_error_rereads (w : World) (payload : OrderCreate.t)
    (key : option string) (st : list Order.t) (user : User) :
  let mid := st ++ racing_rows w in
  fast_path key st = None →
  get_user w (OrderCreate.user_id payload) = Returned user →
  (commit (commit_fault w) mid (build_order float_str w payload key)).1 =
    Raised IntegrityError →
  create_order float_str w payload key st =
    (match select_by_key key mid with
     | Some existing_order => respond existing_order
     | None => Unhandled IntegrityError
     end,
     mid,
     [EvGetUser (OrderCreate.user_id payload);
      EvWithdraw (OrderCreate.user_id payload) (OrderCreate.price payload)]).
Proof.
  intros mid Hmiss Huser Hraise. subst mid.
  unfold create_order. rewrite Hmiss, Huser.
  destruct (commit_cases (commit_fault w) (st ++ racing_rows w)
              (build_order float_str w payload key))
    as [(e & He & _) | (He & _)]; rewrite He in Hraise |- *; [|done].
  simpl in Hraise. injection Hraise as ->. simpl.
  by destruct (select_by_key _ _).
Qed.


Lemma create_order_hit (w : World) (payload : OrderCreate.t)
    (key : option string) (st : list Order.t) (stored : Order.t) :
  fast_path key st = Some stored →
  create_order float_str w payload key st = (respond stored, st, []).
Proof. intros H. unfold create_order. by rewrite H. Qed.

Ltac by_length :=
  let H := fresh in
  intros H; apply (f_equal length) in H; rewrite ?length_app in H; simpl in H; lia.

(** The order a call adds to the store is the order it built, with the
    next identity. *)
Lemma created_is_built (w : World) (payload : OrderCreate.t)
    (key : option string) (st : list Order.t) (o : Order.t) :
  (create_order float_str w payload key st).1.2 = st ++ racing_rows w ++ [o] →
  o = with_id (next_id (st ++ racing_rows w)) (build_order float_str w payload key).
Proof.
  destruct (create_order_store w payload key st) as [H|[H|H]];
    rewrite H; clear H; try by_length.
  rewrite app_assoc. by intros [_ ->]%app_inj_tail.
Qed.

(** A call without a key that reaches the store, the store having no
    fault, adds the order it built. *)
Lemma create_order_keyless (w : World) (payload : OrderCreate.t)
    (st : list Order.t) :
  reaches_commit w payload →
  (create_order float_str w payload None st).1.2 =
    st ++ racing_rows w ++
    [with_id (next_id (st ++ racing_rows w))
       (build_order float_str w payload None)].
Proof.
  intros [[user Huser] Hfault].
  unfold create_order. simpl. rewrite Huser.
  unfold commit. rewrite duplicate_key_None by apply build_order_key.
  rewrite Hfault, <- app_assoc.
  by destruct (send_email w _ _ _ _) as [[]|e].
Qed.

Lemma respond_with_id (i : Z) (o : Order.t) :
  respond (with_id i o) =
  Created (OrderRead.mk i (Order.user_id o) (Order.price o) (Order.status o)
             (Order.message o) (Order.created_at o)).
Proof. done. Qed.

(** A first call in a healthy world, for a key the store does not hold,
    stores the order it built and returns it. *)
Lemma create_order_first (w : World) (payload : OrderCreate.t) (k : string)
    (st : list Order.t) :
  select_by_key (Some k) st = None →
  healthy w payload →
  let o := with_id (next_id st) (build_order float_str w payload (Some k)) in
  (create_order float_str w payload (Some k) st).1 = (respond o, st ++ [o]).
Proof.
  intros Hfresh [[[user Huser] Hfault] [Hseq Hmail]] o. subst o.
  unfold create_order.
  replace (fast_path (Some k) st) with (@None Order.t)
    by (unfold fast_path; rewrite Hfresh; by destruct (String.eqb k "")).
  rewrite Huser, Hseq, app_nil_r. unfold commit.
  rewrite duplicate_key_fresh by (by rewrite build_order_key).
  rewrite Hfault. cbv zeta. by rewrite Hmail.
Qed.

(** A later call finds the stored order: on the fast path for a non-empty
    key, through the constraint error and the re-read for the empty one. *)
Lemma create_order_again (w : World) (payload : OrderCreate.t) (k : string)
    (st : list Order.t) (stored : Order.t) :
  select_by_key (Some k) st = Some stored →
  (k = "" → healthy w payload) →
  (create_order float_str w payload (Some k) st).1 = (respond stored, st).
Proof.
  intros Hstored Hk. destruct (decide (k = "")) as [->|Hne].
  - destruct (Hk eq_refl) as [[[user Huser] Hfault] [Hseq Hmail]].
    unfold create_order. simpl. rewrite Huser, Hseq, app_nil_r. unfold commit.
    rewrite (duplicate_key_stored _ stored "") by
      (by rewrite ?build_order_key).
    simpl. by rewrite Hstored.
  - rewrite (create_order_hit w payload (Some k) st stored); [done|].
    by rewrite fast_path_stored.
Qed.

Lemma replay_again (ws : list World) (payload : OrderCreate.t) (k : string)
    (st : list Order.t) (stored : Order.t) :
  select_by_key (Some k) st = Some stored →
  Forall (λ w, k = "" → healthy w payload) ws →
  replay float_str ws payload (Some k) st =
    (replicate (length ws) (respond stored), st).
Proof.
  intros Hstored. induction 1 as [|w ws Hw _ IH]; [done|].
  simpl. pose proof (create_order_again w payload k st stored Hstored Hw) as E.
  destruct (create_order float_str w payload (Some k) st) as [[r st1] tr].
  simpl in E. injection E as -> ->. by rewrite IH.
Qed.

Lemma validate_bounds (user_id : Z) (price : float) (payload : OrderCreate.t) :
  OrderCreate.validate user_id price = Some payload →
  1 ≤ OrderCreate.user_id payload ∧
  PrimFloat.ltb PrimFloat.zero (OrderCreate.price payload) = true.
Proof.
  unfold OrderCreate.validate, OrderCreate.valid.
  destruct (1 <=? user_id) eqn:Hu; simpl; [|done].
  destruct (PrimFloat.ltb _ _) eqn:Hp; [|done].
  intros [= <-]. simpl. split; [lia | done].
Qed.

(** One request keeps the bounds on every row of the store. *)
Lemma post_orders_bounds (w : World) (user_id : Z) (price : float)
    (key : option string) (st : list Order.t) :
  Forall within_bounds st →
  Forall within_bounds (racing_rows w) →
  Forall within_bounds (post_orders float_str w user_id price key st).1.2.
Proof.
  intros Hst Hrace. unfold post_orders.
  destruct (OrderCreate.validate user_id price) as [payload|] eqn:Hval; [|done].
  apply validate_bounds in Hval as [Hu Hp].
  destruct (create_order_store w payload key st) as [H|[H|H]]; rewrite H.
  - done.
  - by apply Forall_app.
  - apply Forall_app. split; [by apply Forall_app|].
    apply Forall_singleton. unfold within_bounds. simpl.
    by rewrite build_order_user_id, build_order_price.
Qed.

(** *** The claims *)

(** C1 (sequential idempotency): take a key the store does not hold yet
    and a payload, and issue the request one or more times in a row, every
    collaborator of the first call answering (and, for the empty key, of
    the later calls too).  The store ends with the rows it had and one
    order more, which carries the key and is the only row that does, and
    every call returns that order: the first call's order, read back
    unchanged by each replay. *)
Theorem sequential_idempotency (w : World) (ws : list World)
    (payload : OrderCreate.t) (k : string) (st : list Order.t) :
  select_by_key (Some k) st = None →
  healthy w payload →
  Forall (λ w', k = "" → healthy w' payload) ws →
  let o := with_id (next_id st) (build_order float_str w payload (Some k)) in
  replay float_str (w :: ws) payload (Some k) st =
    (replicate (S (length ws)) (respond o), st ++ [o]) ∧
  filter (λ x, Order.idempotency_key x = Some k) (st ++ [o]) = [o] ∧
  Order.idempotency_key o = Some k ∧
  ∃ body, respond o = Created body ∧
          OrderRead.id body = next_id st ∧
          OrderRead.user_id body = OrderCreate.user_id payload ∧
          OrderRead.price body = OrderCreate.price payload.
Proof.
  intros Hfresh Hw Hws o.
  assert (Order.idempotency_key o = Some k) as Hkey by apply build_order_key.
  assert (select_by_key (Some k) (st ++ [o]) = Some o) as Hnow.
  { rewrite select_by_key_app, Hfresh. by apply select_by_key_singleton. }
  repeat split.
  - simpl. pose proof (create_order_first w payload k st Hfresh Hw) as E.
    fold o in E.
    destruct (create_order float_str w payload (Some k) st) as [[r st1] tr].
    simpl in E. injection E as -> ->.
    by rewrite (replay_again ws payload k _ o Hnow Hws).
  - rewrite filter_app, (select_by_key_None _ _ Hfresh).
    by rewrite (list.filter_singleton_True _ o []).
  - done.
  - eexists. split; [apply respond_with_id|]. simpl.
    by rewrite build_order_user_id, build_order_price.
Qed.

(** The answer that returns a stored row: the reading of its fields. *)
Lemma respond_identified (o : Order.t) (i : Z) :
  Order.id o = Some i →
  respond o =
  Created (OrderRead.mk i (Order.user_id o) (Order.price o) (Order.status o)
             (Order.message o) (Order.created_at o)).
Proof. intros H. unfold respond, OrderRead_of. by rewrite H. Qed.

(** C2 (race recovery): when the commit of an order built with a present
    key raises the constraint error, the rows of the store having their
    identities, the handler re-reads the store by that key and has two
    outcomes only.  Either the re-read finds an order, a stored row that
    carries the key, and the answer is the normal creation response with
    that order's fields, the error being dropped; or the re-read finds
    none and the answer is the constraint error itself, unhandled.  In
    both the store is left as the racing sessions made it and no
    notification is sent; and when the error is a collision on the unique
    index the re-read does find the order. *)
Theorem race_recovery (w : World) (payload : OrderCreate.t) (k : string)
    (st : list Order.t) (user : User) :
  let mid := st ++ racing_rows w in
  let order := build_order float_str w payload (Some k) in
  let calls :=
    [EvGetUser (OrderCreate.user_id payload);
     EvWithdraw (OrderCreate.user_id payload) (OrderCreate.price payload)] in
  fast_path (Some k) st = None →
  get_user w (OrderCreate.user_id payload) = Returned user →
  (commit (commit_fault w) mid order).1 = Raised IntegrityError →
  all_identified mid →
  ((∃ existing_order i,
      select_by_key (Some k) mid = Some existing_order ∧
      existing_order ∈ mid ∧
      Order.idempotency_key existing_order = Some k ∧
      Order.id existing_order = Some i ∧
      create_order float_str w payload (Some k) st =
        (Created (OrderRead.mk i (Order.user_id existing_order)
                    (Order.price existing_order) (Order.status existing_order)
                    (Order.message existing_order)
                    (Order.created_at existing_order)),
         mid, calls))
   ∨
   (select_by_key (Some k) mid = None ∧
    create_order float_str w payload (Some k) st =
      (Unhandled IntegrityError, mid, calls)))
  ∧ (duplicate_key order mid = true → is_Some (select_by_key (Some k) mid)).
Proof.
  intros mid order calls Hmiss Huser Hraise Hids. subst mid order calls.
  split.
  - rewrite (integrity_error_rereads w payload (Some k) st user Hmiss Huser Hraise).
    destruct (select_by_key (Some k) (st ++ racing_rows w))
      as [existing_order|] eqn:Hsel; [left | right; done].
    destruct (select_by_key_Some _ _ _ Hsel) as [Hkey Hin].
    destruct (proj1 (Forall_forall _ _) Hids _ Hin) as [i Hi].
    exists existing_order, i. repeat split; try done.
    by rewrite (respond_identified _ i Hi).
  - intros (existing & H)%duplicate_key_true.
    rewrite build_order_key in H. by rewrite H.
Qed.


(** C4 (identity gate): when the fast path does not hit and the Identity
    Gateway call raises, whatever the exception, the handler answers 404
    "User not found", leaves the store as it found it, and its only gateway
    call is the identity lookup: the ledger and the notification gateway
    are not called. *)
Theorem identity_gate (w : World) (payload : OrderCreate.t)
    (key : option string) (st : list Order.t) (e : Exception) :
  fast_path key st = None →
  get_user w (OrderCreate.user_id payload) = Raised e →
  create_order float_str w payload key st =
    (HTTPException 404 "User not found", st,
     [EvGetUser (OrderCreate.user_id payload)]).
Proof.
  intros Hmiss Hraise. unfold create_order. by rewrite Hmiss, Hraise.
Qed.

(** C5, amended (outcome classification): the order a call creates is
    CONFIRMED exactly when the ledger answered with a truthy [withdrawn],
    and FAILED otherwise.  Its message is the handler's function of the
    price and the ledger's answer.  It always contains the amount; on
    success it contains the balance the ledger reported; on failure it
    contains the ledger's message when the answer carried one, is left
    without a reason when the answer carried none, and contains the phrase
    "Billing unavailable" when the ledger call raised. *)
Theorem outcome_classification (w : World) (payload : OrderCreate.t)
    (key : option string) (st : list Order.t) (o : Order.t) :
  let price := OrderCreate.price payload in
  let r := withdraw w (OrderCreate.user_id payload) price in
  (create_order float_str w payload key st).1.2 = st ++ racing_rows w ++ [o] →
  (Order.status o = CONFIRMED ↔ reported_success r = true) ∧
  (Order.status o = FAILED ↔ reported_success r = false) ∧
  Order.message o =
    (let '(withdrawal_success, message, payment) := attempt_withdrawal r in
     email_body float_str price withdrawal_success message payment) ∧
  contains (float_str price) (Order.message o) ∧
  match r with
  | Returned payment =>
      if reported_success r
      then ∀ balance, payment !! "balance" = Some balance →
             contains (py_str float_str balance) (Order.message o)
      else (∀ reason, payment !! "message" = Some reason →
              contains (py_str float_str reason) (Order.message o)) ∧
           (payment !! "message" = None →
              Order.message o =
                "Письмо горя: не удалось списать " +:+ float_str price +:+ ". ")
  | Raised _ => contains "Billing unavailable" (Order.message o)
  end.
Proof.
  intros price r ->%created_is_built. subst price r.
  unfold build_order, attempt_withdrawal, reported_success, status_value,
    email_body.
  destruct (withdraw w _ _) as [payment|e]; simpl.
  - destruct (truthy (default (VBool false) (payment !! "withdrawn"))); simpl.
    + repeat split; try done; [apply contains_here|].
      intros balance ->. simpl. rewrite <- !append_assoc. apply contains_suffix.
    + repeat split; try done; [apply contains_here| |].
      * intros reason ->. simpl. rewrite <- !append_assoc. apply contains_suffix.
      * by intros ->.
  - repeat split; try done; [apply contains_here|].
    rewrite <- !append_assoc. apply contains_suffix.
Qed.

(** C6, amended (ledger failure absorbed): for a request that passes
    identity resolution, a ledger that declines or raises yields an order
    with status FAILED, and that order is what the handler commits.  When
    the commit succeeds the order is stored and, once the notification
    call returns, it is the body of a normal creation response.  When the
    commit raises nothing is stored, and the answer is the order already
    stored under the key or the store's own exception.  An unhandled
    exception in the answer is thus the store's or the notification
    gateway's, never the ledger's. *)
Theorem ledger_failure_absorbed (w : World) (payload : OrderCreate.t)
    (key : option string) (st : list Order.t) (user : User) :
  let uid := OrderCreate.user_id payload in
  let mid := st ++ racing_rows w in
  let order := build_order float_str w payload key in
  fast_path key st = None →
  get_user w uid = Returned user →
  reported_success (withdraw w uid (OrderCreate.price payload)) = false →
  let '(resp, st', _) := create_order float_str w payload key st in
  Order.status order = FAILED ∧
  match commit (commit_fault w) mid order with
  | (Returned order', _) =>
      Order.status order' = FAILED ∧ st' = mid ++ [order'] ∧
      match send_email w uid (email user) subject (Order.message order) with
      | Returned _ =>
          ∃ body, resp = Created body ∧ respond order' = Created body ∧
                  OrderRead.status body = FAILED
      | Raised e => resp = Unhandled e
      end
  | (Raised e, _) =>
      st' = mid ∧
      (resp = Unhandled e ∨
       ∃ existing_order, select_by_key key mid = Some existing_order ∧
                         resp = respond existing_order)
  end.
Proof.
  intros uid mid order Hmiss Huser Hfail. subst uid mid order.
  assert (Order.status (build_order float_str w payload key) = FAILED) as Hst
    by (by rewrite build_order_status, Hfail).
  unfold create_order. rewrite Hmiss, Huser.
  destruct (commit_cases (commit_fault w) (st ++ racing_rows w)
              (build_order float_str w payload key))
    as [(e & -> & _) | (-> & _ & _)].
  - destruct (is_IntegrityError e); [|by auto].
    destruct (select_by_key key (st ++ racing_rows w)) eqn:Hsel; eauto 6.
  - destruct (send_email w _ _ _ _) as [[]|e]; [|by auto].
    repeat split; try done. eexists. repeat split. exact Hst.
Qed.

(** C7 (no-key independence): two calls without a key, one after the
    other, with the same payload, each reaching a store that has no fault,
    are never looked up on the fast path and each add their own order: the
    store grows by two rows that carry the payload, no key, and identities
    of which the second is the larger. *)
Theorem no_key_independence (w1 w2 : World) (payload : OrderCreate.t)
    (st : list Order.t) :
  reaches_commit w1 payload →
  reaches_commit w2 payload →
  let st1 := (create_order float_str w1 payload None st).1.2 in
  let st2 := (create_order float_str w2 payload None st1).1.2 in
  fast_path None st = None ∧ fast_path None st1 = None ∧
  ∃ o1 o2 i1 i2,
    st1 = st ++ racing_rows w1 ++ [o1] ∧
    st2 = st1 ++ racing_rows w2 ++ [o2] ∧
    Order.id o1 = Some i1 ∧ Order.id o2 = Some i2 ∧ i1 < i2 ∧
    Order.idempotency_key o1 = None ∧ Order.idempotency_key o2 = None ∧
    Order.user_id o1 = OrderCreate.user_id payload ∧
    Order.user_id o2 = OrderCreate.user_id payload ∧
    Order.price o1 = OrderCreate.price payload ∧
    Order.price o2 = OrderCreate.price payload.
Proof.
  intros H1 H2 st1 st2. subst st1 st2. do 2 (split; [done|]).
  rewrite (create_order_keyless w1 payload st H1).
  set (o1 := with_id (next_id (st ++ racing_rows w1))
               (build_order float_str w1 payload None)).
  rewrite (create_order_keyless w2 payload _ H2).
  set (mid2 := (st ++ racing_rows w1 ++ [o1]) ++ racing_rows w2).
  exists o1, (with_id (next_id mid2) (build_order float_str w2 payload None)),
    (next_id (st ++ racing_rows w1)), (next_id mid2).
  repeat split; try reflexivity;
    try apply build_order_key; try apply build_order_user_id;
    try apply build_order_price.
  apply (next_id_above mid2 o1); [|done].
  unfold mid2. rewrite !elem_of_app, list_elem_of_singleton. auto.
Qed.

(** C8 (price invariant): a body that breaks a bound is refused before the
    handler runs: the answer is the validation error, the store is as it
    was, and no gateway is called.  So, serving any sequence of requests
    from a store whose rows are all within bounds, the rows written by
    other sessions being within bounds too, leaves every row of the store
    with a price strictly above zero and a user id of at least one. *)
Theorem price_invariant (reqs : list Request) (st : list Order.t) :
  Forall within_bounds st →
  Forall (λ r, Forall within_bounds (racing_rows (world r))) reqs →
  Forall within_bounds (serve float_str reqs st) ∧
  ∀ w user_id price key st0,
    OrderCreate.valid user_id price = false →
    post_orders float_str w user_id price key st0 = (Unprocessable, st0, []).
Proof.
  intros Hst Hreqs. split.
  - unfold serve. revert st Hst.
    induction Hreqs as [|r reqs Hr _ IH]; intros st Hst; [done|].
    simpl. apply IH. by apply post_orders_bounds.
  - intros w user_id price key st0 H.
    unfold post_orders, OrderCreate.validate. by rewrite H.
Qed.

(** C9 (notification asymmetry): the handler calls the Notification
    Gateway exactly when it has committed the order it built, once, as its
    last gateway call, with the order's message to the resolved user's
    address.  It makes no gateway call at all when the fast path returns a
    stored order, and no notification call when the commit raises, which
    covers every return through race recovery. *)
Theorem notification_asymmetry (w : World) (payload : OrderCreate.t)
    (key : option string) (st : list Order.t) :
  let '(_, st', trace) := create_order float_str w payload key st in
  let uid := OrderCreate.user_id payload in
  let mid := st ++ racing_rows w in
  let order := build_order float_str w payload key in
  (notifications trace ≠ [] ↔ st' = mid ++ [with_id (next_id mid) order]) ∧
  (st' = mid ++ [with_id (next_id mid) order] →
   ∃ user, get_user w uid = Returned user ∧
     trace = [EvGetUser uid; EvWithdraw uid (OrderCreate.price payload);
              EvSendEmail uid (email user) subject (Order.message order)]) ∧
  (is_Some (fast_path key st) → trace = []) ∧
  (∀ e, (commit (commit_fault w) mid order).1 = Raised e →
        notifications trace = []).
Proof.
  handler_cases w payload key st; cbv zeta; simpl;
    repeat split; try done; try by_length; eauto;
    try (by intros [? ?]); try (intros H; exfalso; revert H; by_length).
Qed.

(** C10, amended (replay ignores the payload): a request whose non-empty
    key is the key of a stored order gets that order back, whatever its own
    [user_id] and [price] are; the store is untouched and no gateway is
    called.  The answer is the normal creation response with the stored
    order's fields. *)
Theorem replay_ignores_payload (w : World) (payload : OrderCreate.t)
    (k : string) (st : list Order.t) (stored : Order.t) :
  k ≠ "" →
  select_by_key (Some k) st = Some stored →
  create_order float_str w payload (Some k) st = (respond stored, st, []) ∧
  ∀ i, Order.id stored = Some i →
    create_order float_str w payload (Some k) st =
      (Created (OrderRead.mk i (Order.user_id stored) (Order.price stored)
                  (Order.status stored) (Order.message stored)
                  (Order.created_at stored)),
       st, []).
Proof.
  intros Hk Hstored.
  assert (create_order float_str w payload (Some k) st = (respond stored, st, []))
    as Hrun by (apply create_order_hit; by rewrite fast_path_stored).
  split; [done|]. intros i Hi. by rewrite Hrun, (respond_identified _ i Hi).
Qed.

End HandlerFacts.

(** ** The scenarios, run *)

(** Scenario A: user 1, price 50, no key, the ledger confirms with balance
    450. *)
Example scenario_A :
  create_order float_str_whole (answering ledger_confirms)
    (OrderCreate.mk 1 50%float) None [] =
  (Created (OrderRead.mk 1 1 50%float CONFIRMED
     "Письмо счастья: заказ на сумму 50.0 подтвержден. Баланс 450.0"
     1700000000),
   [Order.mk (Some 1) 1 50%float CONFIRMED
     "Письмо счастья: заказ на сумму 50.0 подтвержден. Баланс 450.0"
     1700000000 None],
   [EvGetUser 1; EvWithdraw 1 50%float;
    EvSendEmail 1 "alice@example.com" subject
      "Письмо счастья: заказ на сумму 50.0 подтвержден. Баланс 450.0"]).
Proof. vm_compute. reflexivity. Qed.

(** Scenario B, for C1: user 1, price 1000, key [abc], the ledger declines;
    the request is then issued twice more, with the ledger down and with
    the ledger confirming.  All three calls return the first call's failed
    order, the only row of the store. *)
Lemma sequential_idempotency_scenario :
  let payload := OrderCreate.mk 1 1000%float in
  let o := Order.mk (Some 1) 1 1000%float FAILED
             "Письмо горя: не удалось списать 1000.0. insufficient funds"
             1700000000 (Some "abc") in
  replay float_str_whole
    [answering ledger_declines; answering ledger_down; nobody_home]
    payload (Some "abc") [] = ([respond o; respond o; respond o], [o]).
Proof.
  intros payload o.
  destruct (sequential_idempotency float_str_whole
              (answering ledger_declines) [answering ledger_down; nobody_home]
              payload "abc" []) as [Hrun _].
  - reflexivity.
  - repeat split. by exists alice.
  - repeat constructor; discriminate.
  - exact Hrun.
Defined.

(** Scenario D, for C2: the request with key [dup-1] finds an empty store,
    another session commits its order for [dup-1] meanwhile, and the
    request's own commit is refused; it answers with the winner's order,
    as a normal creation response. *)
Lemma race_recovery_scenario :
  create_order float_str_whole (raced [winner] ledger_declines)
    (OrderCreate.mk 1 1000%float) (Some "dup-1") [] =
  (Created (OrderRead.mk 1 1 1000%float CONFIRMED "stored by the winner"
              1699999999),
   [winner], [EvGetUser 1; EvWithdraw 1 1000%float]).
Proof.
  destruct (race_recovery float_str_whole (raced [winner] ledger_declines)
              (OrderCreate.mk 1 1000%float) "dup-1" [] alice)
    as [[(existing & i & Hsel & _ & _ & Hid & Hrun)|(Hnone & _)] _].
  - reflexivity.
  - reflexivity.
  - reflexivity.
  - repeat constructor. by eexists.
  - vm_compute in Hsel. injection Hsel as <-.
    vm_compute in Hid. injection Hid as <-. exact Hrun.
  - vm_compute in Hnone. discriminate.
Defined.


(** Scenario C, for C4: user 999 is unknown to the Identity Gateway. *)
Lemma identity_gate_scenario :
  create_order float_str_whole nobody_home (OrderCreate.mk 999 50%float)
    (Some "abc") [winner] =
  (HTTPException 404 "User not found", [winner], [EvGetUser 999]).
Proof.
  apply (identity_gate float_str_whole nobody_home (OrderCreate.mk 999 50%float)
           (Some "abc") [winner] (GatewayError "HTTPStatusError"));
    reflexivity.
Defined.

(** For C5 as stated: a decline whose answer carries no message leaves the
    failure message without a reason; the phrase "Billing unavailable" is
    not in it. *)
Lemma silent_decline_has_no_fallback_phrase :
  let w := answering ledger_declines_silently in
  let payload := OrderCreate.mk 1 1000%float in
  ∃ o payment,
    (create_order float_str_whole w payload None []).1.2 = [o] ∧
    withdraw w 1 1000%float = Returned payment ∧
    payment !! "message" = None ∧
    Order.status o = FAILED ∧
    Order.message o = "Письмо горя: не удалось списать 1000.0. " ∧
    ¬ contains "Billing unavailable" (Order.message o).
Proof.
  intros w payload. eexists. eexists.
  split; [vm_compute; reflexivity|]. split; [reflexivity|].
  split; [vm_compute; reflexivity|]. split; [reflexivity|]. split; [reflexivity|].
  intros H%contains_containsb. vm_compute in H. discriminate.
Qed.

(** For C5 as amended: the order created in scenario A. *)
Lemma outcome_classification_scenario :
  let o := Order.mk (Some 1) 1 50%float CONFIRMED
     "Письмо счастья: заказ на сумму 50.0 подтвержден. Баланс 450.0"
     1700000000 None in
  Order.status o = CONFIRMED ∧
  contains "50.0" (Order.message o) ∧ contains "450.0" (Order.message o).
Proof.
  intros o.
  destruct (outcome_classification float_str_whole (answering ledger_confirms)
              (OrderCreate.mk 1 50%float) None [] o)
    as (Hstatus & _ & _ & Hamount & Hbalance).
  - vm_compute; reflexivity.
  - split; [apply Hstatus; vm_compute; reflexivity|]. split; [exact Hamount|].
    apply (Hbalance (VFloat 450%float)). vm_compute; reflexivity.
Defined.

(** For C6 as stated: the ledger is down, the request passes identity
    resolution, and no failed order is stored or returned.  First when the
    request loses the race for [dup-1]; then when it repeats, one call
    after the other, a confirmed request that carried the empty key. *)
Lemma ledger_failure_without_failed_order :
  (let w := raced [winner] ledger_down in
   get_user w 1 = Returned alice ∧
   reported_success (withdraw w 1 1000%float) = false ∧
   create_order float_str_whole w (OrderCreate.mk 1 1000%float) (Some "dup-1") [] =
     (respond winner, [winner], [EvGetUser 1; EvWithdraw 1 1000%float]) ∧
   Order.status winner = CONFIRMED) ∧
  (let payload := OrderCreate.mk 1 50%float in
   let stored := Order.mk (Some 1) 1 50%float CONFIRMED
     "Письмо счастья: заказ на сумму 50.0 подтвержден. Баланс 450.0"
     1700000000 (Some "") in
   create_order float_str_whole (answering ledger_confirms) payload (Some "") [] =
     (respond stored, [stored],
      [EvGetUser 1; EvWithdraw 1 50%float;
       EvSendEmail 1 "alice@example.com" subject (Order.message stored)]) ∧
   create_order float_str_whole (answering ledger_down) payload (Some "")
     [stored] =
     (respond stored, [stored], [EvGetUser 1; EvWithdraw 1 50%float]) ∧
   Order.status stored = CONFIRMED).
Proof.
  split.
  - repeat split.
  - repeat split; vm_compute; reflexivity.
Qed.

(** For C6 as amended: the ledger is down and the store takes the order. *)
Lemma ledger_failure_absorbed_scenario :
  ∃ body o,
    (create_order float_str_whole (answering ledger_down)
       (OrderCreate.mk 1 50%float) (Some "k-1") [winner]).1 =
      (Created body, [winner; o]) ∧
    OrderRead.status body = FAILED ∧ Order.status o = FAILED ∧
    OrderRead.message body =
      "Письмо горя: не удалось списать 50.0. Billing unavailable".
Proof.
  pose proof (ledger_failure_absorbed float_str_whole (answering ledger_down)
                (OrderCreate.mk 1 50%float) (Some "k-1") [winner] alice
                eq_refl eq_refl eq_refl) as H.
  destruct (create_order _ _ _ _ _) as [[resp st'] trace].
  vm_compute in H.
  destruct H as (_ & Ho & -> & body & -> & [= <-] & Hbody).
  eexists _, _. repeat split.
Defined.

(** For C7: scenario A, twice. *)
Lemma no_key_independence_scenario :
  let w := answering ledger_confirms in
  let payload := OrderCreate.mk 1 50%float in
  let st1 := (create_order float_str_whole w payload None []).1.2 in
  let st2 := (create_order float_str_whole w payload None st1).1.2 in
  ∃ o1 o2 i1 i2,
    st2 = [o1; o2] ∧ Order.id o1 = Some i1 ∧ Order.id o2 = Some i2 ∧ i1 < i2.
Proof.
  intros w payload st1 st2.
  assert (reaches_commit w payload) as Hw by (split; [by exists alice|done]).
  destruct (no_key_independence float_str_whole w w payload [] Hw Hw)
    as (_ & _ & o1 & o2 & i1 & i2 & H1 & H2 & Hi1 & Hi2 & Hlt & _).
  fold st1 in H1, H2. fold st2 in H2. exists o1, o2, i1, i2.
  rewrite H2, H1. repeat split; assumption.
Defined.

(** For C8: a valid request, then a price of zero, a price that is not a
    number and a user id of zero; only the first is stored. *)
Lemma price_invariant_scenario :
  let w := answering ledger_confirms in
  serve float_str_whole
    [Build_Request w 1 50%float None;
     Build_Request w 1 0%float None;
     Build_Request w 1 nan (Some "abc");
     Build_Request w 0 50%float None] [] =
  [Order.mk (Some 1) 1 50%float CONFIRMED
     "Письмо счастья: заказ на сумму 50.0 подтвержден. Баланс 450.0"
     1700000000 None] ∧
  Forall within_bounds
    (serve float_str_whole
       [Build_Request w 1 50%float None;
        Build_Request w 1 0%float None;
        Build_Request w 1 nan (Some "abc");
        Build_Request w 0 50%float None] []) ∧
  post_orders float_str_whole w 1 0%float None [] = (Unprocessable, [], []).
Proof.
  intros w. split; [vm_compute; reflexivity|].
  destruct (price_invariant float_str_whole
              [Build_Request w 1 50%float None;
               Build_Request w 1 0%float None;
               Build_Request w 1 nan (Some "abc");
               Build_Request w 0 50%float None] []) as [Hall Hreject].
  - constructor.
  - repeat constructor.
  - split; [exact Hall|]. by apply Hreject.
Defined.

(** For C10 as stated: the empty key.  A confirmed request with the empty
    key is stored under it; the same request again is not answered from
    the fast path: the Identity Gateway and the Ledger Gateway are both
    called (a second withdrawal) before the stored order comes back through
    the constraint error, and when the Identity Gateway is down the replay
    is answered 404 instead of the stored order. *)
Lemma empty_key_replay_calls_gateways :
  let payload := OrderCreate.mk 1 50%float in
  let stored := Order.mk (Some 1) 1 50%float CONFIRMED
     "Письмо счастья: заказ на сумму 50.0 подтвержден. Баланс 450.0"
     1700000000 (Some "") in
  (create_order float_str_whole (answering ledger_confirms) payload (Some "") []).1 =
    (respond stored, [stored]) ∧
  select_by_key (Some "") [stored] = Some stored ∧
  create_order float_str_whole (answering ledger_confirms) payload (Some "")
    [stored] =
    (respond stored, [stored], [EvGetUser 1; EvWithdraw 1 50%float]) ∧
  create_order float_str_whole nobody_home payload (Some "") [stored] =
    (HTTPException 404 "User not found", [stored], [EvGetUser 1]).
Proof. repeat split; vm_compute; reflexivity. Qed.

(** For C10 as amended: scenario B's replay, with another payload. *)
Lemma replay_ignores_payload_scenario :
  let stored := Order.mk (Some 1) 1 1000%float FAILED
             "Письмо горя: не удалось списать 1000.0. insufficient funds"
             1700000000 (Some "abc") in
  create_order float_str_whole nobody_home (OrderCreate.mk 7 5%float)
    (Some "abc") [stored] = (respond stored, [stored], []).
Proof.
  intros stored.
  destruct (replay_ignores_payload float_str_whole nobody_home
              (OrderCreate.mk 7 5%float) "abc" [stored] stored)
    as [Hrun _]; [discriminate | reflexivity | exact Hrun].
Defined.

(** ** models.py: the request bounds *)

(** X10 (what a valid body is): a body is accepted exactly when its user
    id is at least one and its price is a positive number, finite or
    plus infinity; the model built carries the two fields unchanged.  A
    price that is not a number, a zero of either sign, a negative price
    and minus infinity are all refused. *)
Theorem validate_accepts_positive (user_id : Z) (price : float)
    (payload : OrderCreate.t) :
  OrderCreate.validate user_id price = Some payload ↔
  payload = OrderCreate.mk user_id price ∧ 1 ≤ user_id ∧
  ((∃ m e, Prim2SF price = S754_finite false m e) ∨
   Prim2SF price = S754_infinity false).
Proof.
  unfold OrderCreate.validate, OrderCreate.valid.
  rewrite ltb_spec.
  change (Prim2SF PrimFloat.zero) with (S754_zero false).
  destruct (Z.leb_spec 1 user_id) as [Hu|Hu]; simpl.
  - destruct (Prim2SF price) as [[]|[]| |[] m e]; simpl;
      (split; [intros [= <-] | intros (-> & _ & [(? & ? & ?)|?])]);
      try done; eauto 6.
  - split; [done|]. intros (_ & ? & _). lia.
Qed.

(** ** The listing endpoint *)

#[local] Instance created_before_total : Total created_before.
Proof. intros a b. unfold created_before. lia. Qed.

#[local] Instance created_before_trans : Transitive created_before.
Proof. intros a b c. unfold created_before. lia. Qed.

Lemma OrderRead_of_fields (o : Order.t) (body : OrderRead.t) :
  OrderRead_of o = Returned body →
  Order.id o = Some (OrderRead.id body) ∧
  OrderRead.user_id body = Order.user_id o ∧
  OrderRead.created_at body = Order.created_at o.
Proof.
  unfold OrderRead_of. destruct (Order.id o); [|done]. by intros [= <-].
Qed.

Lemma read_all_Forall2 (rows : list Order.t) (bodies : list OrderRead.t) :
  read_all rows = Returned bodies →
  Forall2 (λ o body, OrderRead_of o = Returned body) rows bodies.
Proof.
  revert bodies. induction rows as [|o rows IH]; intros bodies; simpl.
  - intros [= <-]. constructor.
  - destruct (OrderRead_of o) as [body|] eqn:Hbody; [|done].
    destruct (read_all rows) as [rest|]; [|done].
    intros [= <-]. constructor; [done|]. by apply IH.
Qed.

Lemma read_all_fmap (rows : list Order.t) (bodies : list OrderRead.t) :
  read_all rows = Returned bodies →
  OrderRead_of <$> rows = Returned <$> bodies.
Proof.
  intros H%read_all_Forall2. induction H as [|o body rows bodies Hb _ IH];
    [done|]. csimpl. by rewrite Hb, IH.
Qed.

Lemma read_all_identified (rows : list Order.t) :
  all_identified rows → ∃ bodies, read_all rows = Returned bodies.
Proof.
  induction 1 as [|o rows [i Hi] _ [bodies IH]]; simpl; [by eexists|].
  unfold OrderRead_of. rewrite Hi, IH. by eexists.
Qed.

Lemma read_all_Raised (rows : list Order.t) (e : Exception) :
  read_all rows = Raised e →
  e = ValidationError ∧ ∃ o, o ∈ rows ∧ Order.id o = None.
Proof.
  induction rows as [|o rows IH]; simpl; [done|].
  unfold OrderRead_of at 1. destruct (Order.id o) eqn:Hid.
  - destruct (read_all rows); [done|]. intros [= ->].
    destruct (IH eq_refl) as (-> & x & Hx & Hnone).
    split; [done|]. exists x. split; [by right|done].
  - intros [= <-]. split; [done|]. exists o. split; [by left|done].
Qed.

Lemma sorted_rows_sorted_bodies (rows : list Order.t) (bodies : list OrderRead.t) :
  Forall2 (λ o body, OrderRead_of o = Returned body) rows bodies →
  StronglySorted created_before rows → StronglySorted by_creation bodies.
Proof.
  induction 1 as [|o body rows bodies Hb Hrest IH]; [constructor|].
  intros [Hsorted Hhead]%StronglySorted_inv.
  constructor; [by apply IH|].
  clear IH Hsorted. induction Hrest as [|o' body' rows bodies Hb' _ IH];
    [constructor|].
  apply Forall_cons in Hhead as [Hle Hhead]. constructor; [|by apply IH].
  unfold by_creation, created_before in *.
  apply OrderRead_of_fields in Hb as (_ & _ & ->).
  apply OrderRead_of_fields in Hb' as (_ & _ & ->). exact Hle.
Qed.

(** X11 (the listing is in order of creation): a listing that succeeds,
    with or without a user filter, has each order created no later than
    every order after it. *)
Theorem list_orders_sorted (user_id : option Z) (st : list Order.t)
    (bodies : list OrderRead.t) :
  list_orders user_id st = Returned bodies →
  StronglySorted by_creation bodies.
Proof.
  unfold list_orders. intros H%read_all_Forall2.
  eapply sorted_rows_sorted_bodies; [exact H|].
  apply StronglySorted_merge_sort; apply _.
Qed.

(** X12 (the listing is complete and exact): a listing that succeeds holds
    the readings of the rows of the user asked for (of all rows, without a
    filter), each row once and nothing else; in particular it has as many
    entries as there are such rows. *)
Theorem list_orders_content (user_id : option Z) (st : list Order.t)
    (bodies : list OrderRead.t) :
  list_orders user_id st = Returned bodies →
  Returned <$> bodies ≡ₚ OrderRead_of <$> where_user user_id st ∧
  length bodies = length (where_user user_id st).
Proof.
  unfold list_orders. intros H%read_all_fmap.
  assert (Returned <$> bodies ≡ₚ OrderRead_of <$> where_user user_id st) as Hp.
  { rewrite <- H. apply fmap_Permutation, merge_sort_Permutation. }
  split; [done|]. apply Permutation_length in Hp.
  by rewrite !length_fmap in Hp.
Qed.

(** X13 (when the listing fails): the listing succeeds when every row it
    has to read has its identity; when it fails, it fails with the
    validation error, and a row of the user asked for lacks its identity.
    Rows of other users are not read and cannot make it fail. *)
Theorem list_orders_fails_on_unidentified (user_id : option Z)
    (st : list Order.t) :
  (all_identified (where_user user_id st) →
   ∃ bodies, list_orders user_id st = Returned bodies) ∧
  (∀ e, list_orders user_id st = Raised e →
        e = ValidationError ∧
        ∃ o, o ∈ where_user user_id st ∧ Order.id o = None).
Proof.
  unfold list_orders. split.
  - intros Hall. apply read_all_identified. unfold all_identified.
    by rewrite merge_sort_Permutation.
  - intros e (-> & o & Ho & Hnone)%read_all_Raised. split; [done|].
    exists o. split; [|done]. by rewrite merge_sort_Permutation in Ho.
Qed.

(** X14 (a user without orders): asking for the orders of a user who has
    none, the user id [0] included, succeeds with the empty list, whatever
    else is stored. *)
Theorem list_orders_of_stranger (u : Z) (st : list Order.t) :
  Forall (λ o, Order.user_id o ≠ u) st →
  list_orders (Some u) st = Returned [].
Proof.
  intros Hnone. unfold list_orders, where_user.
  replace (filter (λ o, Order.user_id o = u) st) with (@nil Order.t); [done|].
  symmetry. induction Hnone as [|o st Ho _ IH]; [done|].
  by rewrite filter_cons_False.
Qed.

(** ** The rest of the handler's behaviour *)

Section HandlerCoverage.

Variable float_str : float -> string.

(** Every way through the handler, with what each leaves behind. *)
Ltac along_handler w payload key st :=
  unfold create_order;
  destruct (fast_path key st) as [existing|] eqn:Hfast;
  [| destruct (get_user w (OrderCreate.user_id payload)) as [user|e_user] eqn:Huser;
     [ destruct (commit_cases (commit_fault w) (st ++ racing_rows w)
                   (build_order float_str w payload key))
         as [(e_commit & Hcommit & Hwhy) | (Hcommit & Hfresh & Hfault)];
       rewrite Hcommit;
       [ destruct (is_IntegrityError e_commit) eqn:Hintegrity;
         [ destruct (select_by_key key (st ++ racing_rows w))
             as [recovered|] eqn:Hreread |]
       | destruct (send_email w (OrderCreate.user_id payload) (email user) subject
                     (Order.message (build_order float_str w payload key)))
           as [[]|e_mail] eqn:Hmail ]
     |] ].

Lemma fast_path_hit_key (key : option string) (st : list Order.t) (o : Order.t) :
  fast_path key st = Some o → Order.idempotency_key o = key ∧ o ∈ st.
Proof.
  unfold fast_path. destruct key as [k|]; [|done].
  destruct (String.eqb k ""); [done|]. apply select_by_key_Some.
Qed.

Lemma OrderRead_of_with_id (i : Z) (o : Order.t) :
  OrderRead_of (with_id i o) =
  Returned (OrderRead.mk i (Order.user_id o) (Order.price o) (Order.status o)
              (Order.message o) (Order.created_at o)).
Proof. done. Qed.

Lemma respond_Created (o : Order.t) (body : OrderRead.t) :
  respond o = Created body → OrderRead_of o = Returned body.
Proof. unfold respond. destruct (OrderRead_of o); by intros [= ->]. Qed.

(** The row behind an answer. *)
Lemma response_row (w : World) (payload : OrderCreate.t)
    (key : option string) (st st' : list Order.t) (body : OrderRead.t)
    (trace : list Event) :
  create_order float_str w payload key st = (Created body, st', trace) →
  ∃ o, o ∈ st' ∧ OrderRead_of o = Returned body.
Proof.
  along_handler w payload key st; intros [= Hresp <- <-]; try done.
  - apply respond_Created in Hresp.
    apply fast_path_hit_key in Hfast as [_ Hin]. by exists existing.
  - apply respond_Created in Hresp.
    apply select_by_key_Some in Hreread as [_ Hin]. by exists recovered.
  - subst body. eexists. split; [|apply OrderRead_of_with_id].
    apply elem_of_app. right. by apply list_elem_of_singleton.
Qed.

(** X1 (what is returned is stored): when the handler answers with an
    order, that order is the reading of a row of the store it leaves, and
    the row carries exactly the key the request came with (no key, for a
    request that came without one). *)
Theorem created_response_is_stored (w : World) (payload : OrderCreate.t)
    (key : option string) (st st' : list Order.t) (body : OrderRead.t)
    (trace : list Event) :
  create_order float_str w payload key st = (Created body, st', trace) →
  ∃ o, o ∈ st' ∧ OrderRead_of o = Returned body ∧
       Order.idempotency_key o = key.
Proof.
  along_handler w payload key st; intros [= Hresp <- <-]; try done.
  - apply respond_Created in Hresp.
    apply fast_path_hit_key in Hfast as [Hkey Hin]. by exists existing.
  - apply respond_Created in Hresp.
    apply select_by_key_Some in Hreread as [Hkey Hin]. by exists recovered.
  - subst body. eexists. split; [|split; [apply OrderRead_of_with_id|]].
    + apply elem_of_app. right. by apply list_elem_of_singleton.
    + apply build_order_key.
Qed.

(** X2 (the only HTTP error is the 404): the handler never answers with
    the validation error, and the one [HTTPException] it raises is 404
    "User not found", raised only when the fast path missed and the
    Identity Gateway call raised; the store is then as it was found. *)
Theorem only_http_error_is_404 (w : World) (payload : OrderCreate.t)
    (key : option string) (st st' : list Order.t) (resp : Response)
    (trace : list Event) :
  create_order float_str w payload key st = (resp, st', trace) →
  resp ≠ Unprocessable ∧
  ∀ status_code detail, resp = HTTPException status_code detail →
    status_code = 404 ∧ detail = "User not found" ∧ st' = st ∧
    fast_path key st = None ∧
    ∃ e, get_user w (OrderCreate.user_id payload) = Raised e.
Proof.
  assert (∀ o, respond o ≠ Unprocessable ∧
               ∀ c d, respond o ≠ HTTPException c d) as Hrespond.
  { intros o. unfold respond. by destruct (OrderRead_of o). }
  along_handler w payload key st; intros [= <- <- <-];
    (split; [try done; apply Hrespond|]); intros c d Hc; try done;
    try (by apply Hrespond in Hc).
  injection Hc as <- <-. eauto 6.
Qed.

(** X3 (order of the gateway calls): the calls of one request are an
    initial part of: identity lookup, withdrawal, notification.  The
    ledger is asked at most once, for the user and the price of the
    payload, never before the user is resolved; the notification never
    comes before the withdrawal. *)
Theorem gateway_call_order (w : World) (payload : OrderCreate.t)
    (key : option string) (st : list Order.t) :
  let uid := OrderCreate.user_id payload in
  ∃ address body,
    (create_order float_str w payload key st).2 `prefix_of`
      [EvGetUser uid; EvWithdraw uid (OrderCreate.price payload);
       EvSendEmail uid address subject body].
Proof.
  intros uid. subst uid.
  along_handler w payload key st; cbn [snd];
    try (exists "", ""; (by apply prefix_nil) ||
                        (by eexists [_; _]) || (by eexists [_]));
    eexists _, _; by exists [].
Qed.

Lemma create_order_prefix (w : World) (payload : OrderCreate.t)
    (key : option string) (st : list Order.t) :
  st `prefix_of` (create_order float_str w payload key st).1.2.
Proof.
  destruct (create_order_store float_str w payload key st) as [H|[H|H]];
    rewrite H.
  - done.
  - by apply prefix_app_r.
  - rewrite <- app_assoc. by apply prefix_app_r.
Qed.

Lemma post_orders_prefix (w : World) (user_id : Z) (price : float)
    (key : option string) (st : list Order.t) :
  st `prefix_of` (post_orders float_str w user_id price key st).1.2.
Proof.
  unfold post_orders. destruct (OrderCreate.validate user_id price); [|done].
  apply create_order_prefix.
Qed.

(** X4 (insert only): whatever requests the endpoint serves, valid or not,
    answered or failed, the store it started from is an initial part of
    the store it ends with: no row is ever removed, changed or moved. *)
Theorem serve_append_only (reqs : list Request) (st : list Order.t) :
  st `prefix_of` serve float_str reqs st.
Proof.
  unfold serve. revert st. induction reqs as [|r reqs IH]; intros st; [done|].
  simpl. etrans; [|apply IH]. apply post_orders_prefix.
Qed.

Lemma unique_keys_snoc (st : list Order.t) (o : Order.t) :
  unique_keys st → duplicate_key o st = false → unique_keys (st ++ [o]).
Proof.
  unfold unique_keys, duplicate_key. intros Hst Hdup.
  rewrite omap_app. simpl.
  destruct (Order.idempotency_key o) as [k|] eqn:Hk; simpl;
    [|by rewrite app_nil_r].
  apply NoDup_app. split; [done|]. split; [|apply NoDup_singleton].
  intros k' Hin ->%list_elem_of_singleton.
  apply list_elem_of_omap in Hin as (x & Hx & Hxk).
  apply bool_decide_eq_false in Hdup.
  destruct (select_by_key (Some k) st) eqn:Hsel; [by apply Hdup|].
  apply select_by_key_None in Hsel.
  by apply (filter_nil_not_elem_of _ _ x Hsel).
Qed.

Lemma unique_keys_prefix (st st' : list Order.t) :
  st `prefix_of` st' → unique_keys st' → unique_keys st.
Proof.
  unfold unique_keys. intros [rest ->]. rewrite omap_app.
  by intros [H _]%NoDup_app.
Qed.

(** One call keeps the keys unique, the racing rows being counted in. *)
Lemma create_order_unique_keys (w : World) (payload : OrderCreate.t)
    (key : option string) (st : list Order.t) :
  unique_keys (st ++ racing_rows w) →
  unique_keys (create_order float_str w payload key st).1.2.
Proof.
  intros Hmid.
  assert (unique_keys st) as Hst
    by (eapply unique_keys_prefix; [|exact Hmid]; by apply prefix_app_r).
  along_handler w payload key st; cbn [fst snd]; try done;
    by apply unique_keys_snoc.
Qed.

(** X5 (at most one order per key): served one after the other, requests
    of any kind (replays, empty keys, failing gateways, failing store)
    leave the non-null idempotency keys of the store pairwise distinct if
    they were so before. *)
Theorem serve_unique_keys (reqs : list Request) (st : list Order.t) :
  Forall (λ r, racing_rows (world r) = []) reqs →
  unique_keys st →
  unique_keys (serve float_str reqs st).
Proof.
  unfold serve. intros Hseq. revert st.
  induction Hseq as [|r reqs Hr _ IH]; intros st Hst; [done|].
  simpl. apply IH. unfold post_orders.
  destruct (OrderCreate.validate _ _) as [payload|]; [|done].
  apply create_order_unique_keys. by rewrite Hr, app_nil_r.
Qed.

(** X6 (two requests race for one key): request B, in a healthy world,
    runs between the first lookup of request A and A's commit, both with
    the same key, fresh in the store, and with any payloads.  B stores its
    order; A's commit is refused whatever its ledger said, A stores
    nothing, sends no notification, and answers with B's order: one row,
    two equal answers. *)
Theorem two_racers_one_order (wA wB : World) (payloadA payloadB : OrderCreate.t)
    (k : string) (st : list Order.t) (user : User) :
  let winner_order :=
    with_id (next_id st) (build_order float_str wB payloadB (Some k)) in
  select_by_key (Some k) st = None →
  healthy wB payloadB →
  get_user wA (OrderCreate.user_id payloadA) = Returned user →
  racing_rows wA = [winner_order] →
  (create_order float_str wB payloadB (Some k) st).1 =
    (respond winner_order, st ++ [winner_order]) ∧
  create_order float_str wA payloadA (Some k) st =
    (respond winner_order, st ++ [winner_order],
     [EvGetUser (OrderCreate.user_id payloadA);
      EvWithdraw (OrderCreate.user_id payloadA) (OrderCreate.price payloadA)]) ∧
  filter (λ o, Order.idempotency_key o = Some k) (st ++ [winner_order]) =
    [winner_order].
Proof.
  intros o Hfresh HB HuserA Hrace.
  assert (Order.idempotency_key o = Some k) as Hkey by apply build_order_key.
  assert (select_by_key (Some k) (st ++ [o]) = Some o) as Hnow.
  { rewrite select_by_key_app, Hfresh. by apply select_by_key_singleton. }
  split; [by apply create_order_first|]. split.
  - assert (fast_path (Some k) st = None) as Hmiss.
    { unfold fast_path. rewrite Hfresh. by destruct (String.eqb k ""). }
    rewrite (integrity_error_rereads float_str wA payloadA (Some k) st user
               Hmiss HuserA); rewrite Hrace; [by rewrite Hnow|].
    unfold commit.
    by rewrite (duplicate_key_stored _ o k) by (by rewrite ?build_order_key).
  - rewrite filter_app, (select_by_key_None _ _ Hfresh).
    by rewrite (list.filter_singleton_True _ o []).
Qed.

(** X7 (a failed notification is not retried): when the notification call
    raises after the commit, the caller gets that exception, yet the order
    is stored; a later request with the same non-empty key, whatever its
    payload and its world, gets the stored order back with no gateway
    call: no second withdrawal, and no second attempt at the notification. *)
Theorem failed_notification_is_not_retried (w w' : World)
    (payload payload' : OrderCreate.t) (k : string) (st : list Order.t)
    (user : User) (e : Exception) :
  let o := with_id (next_id st) (build_order float_str w payload (Some k)) in
  k ≠ "" →
  select_by_key (Some k) st = None →
  get_user w (OrderCreate.user_id payload) = Returned user →
  racing_rows w = [] →
  commit_fault w = None →
  send_email w (OrderCreate.user_id payload) (email user) subject
    (Order.message o) = Raised e →
  create_order float_str w payload (Some k) st =
    (Unhandled e, st ++ [o],
     [EvGetUser (OrderCreate.user_id payload);
      EvWithdraw (OrderCreate.user_id payload) (OrderCreate.price payload);
      EvSendEmail (OrderCreate.user_id payload) (email user) subject
        (Order.message o)]) ∧
  create_order float_str w' payload' (Some k) (st ++ [o]) =
    (respond o, st ++ [o], []).
Proof.
  intros o Hk Hfresh Huser Hseq Hfault Hmail. split.
  - unfold create_order. rewrite fast_path_stored, Hfresh, Huser by done.
    rewrite Hseq, app_nil_r. unfold commit.
    rewrite duplicate_key_fresh by (by rewrite build_order_key).
    rewrite Hfault. cbv zeta. simpl in Hmail. by rewrite Hmail.
  - apply create_order_hit. rewrite fast_path_stored by done.
    rewrite select_by_key_app, Hfresh. apply select_by_key_singleton.
    apply build_order_key.
Qed.

(** X8 (a storage fault after the withdrawal): when the store raises
    anything but an [IntegrityError] at commit, the request having no
    duplicate key, the exception reaches the caller and nothing is stored
    for the request, although the ledger has been asked to withdraw; the
    handler makes no further gateway call, neither to undo the withdrawal
    nor to notify. *)
Theorem storage_fault_after_withdrawal (w : World) (payload : OrderCreate.t)
    (key : option string) (st : list Order.t) (user : User) (e : Exception) :
  let mid := st ++ racing_rows w in
  fast_path key st = None →
  get_user w (OrderCreate.user_id payload) = Returned user →
  duplicate_key (build_order float_str w payload key) mid = false →
  commit_fault w = Some e →
  is_IntegrityError e = false →
  create_order float_str w payload key st =
    (Unhandled e, mid,
     [EvGetUser (OrderCreate.user_id payload);
      EvWithdraw (OrderCreate.user_id payload) (OrderCreate.price payload)]).
Proof.
  intros mid Hmiss Huser Hdup Hfault Hclass. subst mid.
  unfold create_order. rewrite Hmiss, Huser. unfold commit.
  by rewrite Hdup, Hfault, Hclass.
Qed.

(** X15 (a created order can be listed): when the handler answers with an
    order and every row of the store it leaves has its identity, the
    order is in the listing of all orders and in the listing of its
    user. *)
Theorem created_order_is_listed (w : World) (payload : OrderCreate.t)
    (key : option string) (st st' : list Order.t) (body : OrderRead.t)
    (trace : list Event) :
  create_order float_str w payload key st = (Created body, st', trace) →
  all_identified st' →
  ∃ everyone mine,
    list_orders None st' = Returned everyone ∧ body ∈ everyone ∧
    list_orders (Some (OrderRead.user_id body)) st' = Returned mine ∧
    body ∈ mine.
Proof.
  intros (o & Ho & Hbody)%response_row Hall.
  assert (∀ u, o ∈ where_user u st' →
            ∃ bodies, list_orders u st' = Returned bodies ∧ body ∈ bodies)
    as Hlisted.
  { intros u Hin.
    assert (all_identified (where_user u st')) as Hids.
    { destruct u; [|done]. apply Forall_forall.
      intros x [_ Hx]%list_elem_of_filter. revert x Hx.
      by apply Forall_forall. }
    unfold list_orders in *.
    destruct (read_all_identified (merge_sort created_before (where_user u st')))
      as [bodies Hb].
    { unfold all_identified. by rewrite merge_sort_Permutation. }
    exists bodies. split; [done|].
    apply read_all_fmap in Hb.
    assert (Returned body ∈ Returned <$> bodies) as Hin'.
    { rewrite <- Hb, <- Hbody. apply list_elem_of_fmap_2.
      by rewrite merge_sort_Permutation. }
    apply list_elem_of_fmap in Hin' as (b & [= ->] & Hb'). done. }
  destruct (Hlisted None Ho) as (everyone & H1 & H2).
  destruct (Hlisted (Some (OrderRead.user_id body))) as (mine & H3 & H4).
  { simpl. apply list_elem_of_filter. split; [|done].
    by apply OrderRead_of_fields in Hbody as (_ & -> & _). }
  by exists everyone, mine.
Qed.

(** One call keeps every row identified, the racing rows being counted
    in: the row it adds gets its identity at commit. *)
Lemma create_order_identified (w : World) (payload : OrderCreate.t)
    (key : option string) (st : list Order.t) :
  all_identified (st ++ racing_rows w) →
  all_identified (create_order float_str w payload key st).1.2.
Proof.
  intros Hmid.
  assert (all_identified st) as Hst by (by apply Forall_app in Hmid as [? _]).
  destruct (create_order_store float_str w payload key st) as [H|[H|H]];
    rewrite H; try done.
  apply Forall_app. split; [done|]. apply Forall_singleton. by eexists.
Qed.

(** X16 (the listing of a served store succeeds): after any requests
    served one after the other, starting from a store whose rows all have
    their identity, the listing succeeds for every filter, and it lists
    as many orders as the store holds for that filter. *)
Theorem listing_after_serving_succeeds (reqs : list Request)
    (st : list Order.t) (user_id : option Z) :
  Forall (λ r, racing_rows (world r) = []) reqs →
  all_identified st →
  ∃ bodies,
    list_orders user_id (serve float_str reqs st) = Returned bodies ∧
    length bodies = length (where_user user_id (serve float_str reqs st)).
Proof.
  intros Hseq Hst.
  assert (all_identified (serve float_str reqs st)) as Hall.
  { unfold serve. revert st Hst.
    induction Hseq as [|r reqs Hr _ IH]; intros st Hst; [done|].
    simpl. apply IH. unfold post_orders.
    destruct (OrderCreate.validate _ _) as [payload|]; [|done].
    apply create_order_identified. by rewrite Hr, app_nil_r. }
  set (final := serve float_str reqs st) in *.
  assert (all_identified (where_user user_id final)) as Hids.
  { destruct user_id; [|done]. apply Forall_forall.
    intros x [_ Hx]%list_elem_of_filter. revert x Hx. by apply Forall_forall. }
  unfold list_orders.
  destruct (read_all_identified (merge_sort created_before (where_user user_id final)))
    as [bodies Hb].
  { unfold all_identified. by rewrite merge_sort_Permutation. }
  exists bodies. split; [done|].
  apply read_all_fmap, (f_equal length) in Hb. rewrite !length_fmap in Hb.
  rewrite <- Hb. apply Permutation_length, merge_sort_Permutation.
Qed.

(** X17 (the message agrees with the status): the order the handler
    builds has a message that opens with the words of success exactly when
    its status is CONFIRMED, and with the words of failure exactly when
    its status is FAILED. *)
Theorem message_agrees_with_status (w : World) (payload : OrderCreate.t)
    (key : option string) :
  let o := build_order float_str w payload key in
  (Order.status o = CONFIRMED ↔
   String.prefix "Письмо счастья" (Order.message o) = true) ∧
  (Order.status o = FAILED ↔
   String.prefix "Письмо горя" (Order.message o) = true).
Proof.
  intros o. subst o. unfold build_order.
  destruct (attempt_withdrawal _) as [[success message] payment].
  unfold status_value, email_body. cbn [Order.status Order.message].
  destruct (truthy success).
  - generalize (float_str (OrderCreate.price payload) +:+
                " подтвержден. Баланс " +:+
                py_str float_str (default (VStr "n/a") (payment !! "balance"))).
    intros tail. split; split; try done; vm_compute; done.
  - generalize (float_str (OrderCreate.price payload) +:+ ". " +:+
                py_str float_str message).
    intros tail. split; split; try done; vm_compute; done.
Qed.

Lemma build_order_declined (w : World) (r : Outcome Payment)
    (payload : OrderCreate.t) (key : option string) :
  reported_success r = false →
  build_order float_str (with_ledger w r) payload key =
  Order.mk None (OrderCreate.user_id payload) (OrderCreate.price payload)
    FAILED
    ("Письмо горя: не удалось списать "
       +:+ float_str (OrderCreate.price payload) +:+ ". "
       +:+ py_str float_str (attempt_withdrawal r).1.2)
    (utcnow w) key.
Proof.
  unfold build_order, reported_success, attempt_withdrawal. cbn [withdraw with_ledger].
  destruct r as [payment|e]; cbn [fst snd].
  - intros H. unfold status_value, email_body. by rewrite H.
  - done.
Qed.

(** X18 (a ledger failure counts only through its reason): two ledger
    outcomes that both fail to report success and give the same reason
    (the message of a decline, "Billing unavailable" for an exception)
    are handled alike, in answer, store and gateway calls: the balance
    and anything else in the answer are ignored, and so is the exception
    that was raised. *)
Theorem ledger_failures_alike (w : World) (r1 r2 : Outcome Payment)
    (payload : OrderCreate.t) (key : option string) (st : list Order.t) :
  reported_success r1 = false →
  reported_success r2 = false →
  (attempt_withdrawal r1).1.2 = (attempt_withdrawal r2).1.2 →
  create_order float_str (with_ledger w r1) payload key st =
  create_order float_str (with_ledger w r2) payload key st.
Proof.
  intros H1 H2 Hreason. unfold create_order.
  rewrite (build_order_declined w r1 payload key H1).
  rewrite (build_order_declined w r2 payload key H2).
  by rewrite Hreason.
Qed.

End HandlerCoverage.

(** ** The further properties, on the scenarios *)

(** For X1: scenario B's replay. *)
Lemma created_response_is_stored_scenario :
  let stored := Order.mk (Some 1) 1 1000%float FAILED
             "Письмо горя: не удалось списать 1000.0. insufficient funds"
             1700000000 (Some "abc") in
  ∃ o, o ∈ [stored] ∧
       OrderRead_of o =
         Returned (OrderRead.mk 1 1 1000%float FAILED
           "Письмо горя: не удалось списать 1000.0. insufficient funds"
           1700000000) ∧
       Order.idempotency_key o = Some "abc".
Proof.
  intros stored.
  apply (created_response_is_stored float_str_whole nobody_home
           (OrderCreate.mk 7 5%float) (Some "abc") [stored] [stored] _ []).
  vm_compute; reflexivity.
Defined.

(** For X2: scenario C. *)
Lemma only_http_error_is_404_scenario :
  fast_path (Some "abc") [winner] = None ∧
  ∃ e, get_user nobody_home 999 = Raised e.
Proof.
  destruct (only_http_error_is_404 float_str_whole nobody_home
              (OrderCreate.mk 999 50%float) (Some "abc") [winner] [winner]
              (HTTPException 404 "User not found") [EvGetUser 999])
    as [_ H]; [vm_compute; reflexivity|].
  destruct (H 404 "User not found" eq_refl) as (_ & _ & _ & Hmiss & Hraised).
  by split.
Defined.

(** For X5: the key [abc] three times, the empty key twice, no key twice
    and a body that is refused. *)
Lemma serve_unique_keys_scenario :
  let w := answering ledger_confirms in
  unique_keys
    (serve float_str_whole
       [Build_Request w 1 50%float (Some "abc");
        Build_Request (answering ledger_down) 1 50%float (Some "abc");
        Build_Request w 1 50%float (Some "");
        Build_Request w 2 70%float None;
        Build_Request w 1 50%float (Some "");
        Build_Request w 2 70%float None;
        Build_Request w 0 70%float (Some "zzz");
        Build_Request nobody_home 1 50%float (Some "abc")] []).
Proof.
  intros w. apply serve_unique_keys.
  - repeat constructor.
  - apply NoDup_nil_2.
Defined.

(** For X6: scenario D, both requests. *)
Lemma two_racers_one_order_scenario :
  let o := Order.mk (Some 1) 1 50%float CONFIRMED
     "Письмо счастья: заказ на сумму 50.0 подтвержден. Баланс 450.0"
     1700000000 (Some "dup-2") in
  create_order float_str_whole (raced [o] ledger_down)
    (OrderCreate.mk 1 50%float) (Some "dup-2") [] =
  (respond o, [o], [EvGetUser 1; EvWithdraw 1 50%float]).
Proof.
  intros o.
  destruct (two_racers_one_order float_str_whole (raced [o] ledger_down)
              (answering ledger_confirms) (OrderCreate.mk 1 50%float)
              (OrderCreate.mk 1 50%float) "dup-2" [] alice)
    as (_ & Hloser & _).
  - reflexivity.
  - repeat split. by exists alice.
  - reflexivity.
  - vm_compute; reflexivity.
  - exact Hloser.
Defined.

(** For X7: the mail is down on the first call; the replay comes from a
    world where nothing answers. *)
Lemma failed_notification_is_not_retried_scenario :
  let o := Order.mk (Some 1) 1 50%float CONFIRMED
     "Письмо счастья: заказ на сумму 50.0 подтвержден. Баланс 450.0"
     1700000000 (Some "k-7") in
  (create_order float_str_whole (mail_down ledger_confirms)
     (OrderCreate.mk 1 50%float) (Some "k-7") []).1 =
    (Unhandled (GatewayError "ConnectError"), [o]) ∧
  create_order float_str_whole nobody_home (OrderCreate.mk 1 50%float)
    (Some "k-7") [o] = (respond o, [o], []).
Proof.
  intros o.
  destruct (failed_notification_is_not_retried float_str_whole
              (mail_down ledger_confirms) nobody_home
              (OrderCreate.mk 1 50%float) (OrderCreate.mk 1 50%float)
              "k-7" [] alice (GatewayError "ConnectError"))
    as [Hfirst Hagain]; try reflexivity; [discriminate|].
  split; [by rewrite Hfirst | exact Hagain].
Defined.

(** For X8: the store raises an operational error after a confirmed
    withdrawal. *)
Lemma storage_fault_after_withdrawal_scenario :
  create_order float_str_whole (faulting OperationalError ledger_confirms)
    (OrderCreate.mk 1 50%float) None [winner] =
  (Unhandled OperationalError, [winner], [EvGetUser 1; EvWithdraw 1 50%float]).
Proof.
  apply (storage_fault_after_withdrawal float_str_whole
           (faulting OperationalError ledger_confirms)
           (OrderCreate.mk 1 50%float) None [winner] alice OperationalError);
    reflexivity.
Defined.

(** For X11: the three orders, listed oldest first. *)
Lemma list_orders_sorted_scenario :
  StronglySorted by_creation
    [OrderRead.mk 2 2 70%float FAILED "second" 1700000100;
     OrderRead.mk 3 1 20%float CONFIRMED "third" 1700000200;
     OrderRead.mk 1 1 50%float CONFIRMED "first" 1700000300].
Proof.
  apply (list_orders_sorted None three_orders). vm_compute; reflexivity.
Defined.

(** For X12: the orders of user 1 among the three. *)
Lemma list_orders_content_scenario :
  length [OrderRead.mk 3 1 20%float CONFIRMED "third" 1700000200;
          OrderRead.mk 1 1 50%float CONFIRMED "first" 1700000300] =
  length (where_user (Some 1) three_orders).
Proof.
  apply (list_orders_content (Some 1) three_orders). vm_compute; reflexivity.
Defined.

(** For X14: user [0] among the three orders. *)
Lemma list_orders_of_stranger_scenario :
  list_orders (Some 0) three_orders = Returned [].
Proof.
  apply list_orders_of_stranger. repeat constructor; discriminate.
Defined.

(** For X15: the order of scenario A, listed. *)
Lemma created_order_is_listed_scenario :
  let body := OrderRead.mk 1 1 50%float CONFIRMED
     "Письмо счастья: заказ на сумму 50.0 подтвержден. Баланс 450.0"
     1700000000 in
  let o := Order.mk (Some 1) 1 50%float CONFIRMED
     "Письмо счастья: заказ на сумму 50.0 подтвержден. Баланс 450.0"
     1700000000 None in
  ∃ everyone mine,
    list_orders None [o] = Returned everyone ∧ body ∈ everyone ∧
    list_orders (Some 1) [o] = Returned mine ∧ body ∈ mine.
Proof.
  intros body o.
  apply (created_order_is_listed float_str_whole (answering ledger_confirms)
           (OrderCreate.mk 1 50%float) None [] [o] body
           [EvGetUser 1; EvWithdraw 1 50%float;
            EvSendEmail 1 "alice@example.com" subject
              "Письмо счастья: заказ на сумму 50.0 подтвержден. Баланс 450.0"]).
  - vm_compute; reflexivity.
  - repeat constructor. by eexists.
Defined.

(** For X16: three requests served from the three orders, then the
    listing of user 1. *)
Lemma listing_after_serving_succeeds_scenario :
  let w := answering ledger_confirms in
  let reqs := [Build_Request w 1 50%float (Some "abc");
               Build_Request w 1 50%float None;
               Build_Request nobody_home 1 50%float None] in
  ∃ bodies,
    list_orders (Some 1) (serve float_str_whole reqs three_orders) =
      Returned bodies ∧
    length bodies =
      length (where_user (Some 1) (serve float_str_whole reqs three_orders)).
Proof.
  intros w reqs. apply listing_after_serving_succeeds.
  - repeat constructor.
  - repeat constructor; by eexists.
Defined.

(** For X13: a row of user 1 without its identity makes the listing of
    user 1 fail, and leaves the listing of user 2 alone. *)
Example list_orders_unidentified_row :
  let broken := Order.mk None 1 50%float CONFIRMED "no identity" 1700000000 None in
  list_orders (Some 1) (three_orders ++ [broken]) = Raised ValidationError ∧
  list_orders (Some 2) (three_orders ++ [broken]) =
    Returned [OrderRead.mk 2 2 70%float FAILED "second" 1700000100].
Proof. split; vm_compute; reflexivity. Qed.

(** For X18: a ledger that is down and a ledger that declines with the
    message "Billing unavailable" and a balance. *)
Lemma ledger_failures_alike_scenario :
  create_order float_str_whole (with_ledger (answering ledger_confirms) ledger_down)
    (OrderCreate.mk 1 50%float) (Some "k-18") [winner] =
  create_order float_str_whole
    (with_ledger (answering ledger_confirms)
       (Returned (<["withdrawn" := VBool false]>
                  (<["message" := VStr "Billing unavailable"]>
                   (<["balance" := VFloat 450%float]> ∅)))))
    (OrderCreate.mk 1 50%float) (Some "k-18") [winner].
Proof.
  apply ledger_failures_alike; vm_compute; reflexivity.
Defined.
